(** * RaspberryPilot: the flight controller (flyControler.c)

    A shallow embedding of [flyControler.c]: the cascaded attitude / rate PID
    stages, the two throttle-offset stages, the motor mixer, the yaw
    center-point functions and the configuration store.

    Numeric model.  A C [float] is modelled as an exact rational ([Q]):
    rounding, infinities and NaN are not represented, and a C comparison is
    the comparison of rationals.  Equalities between stored values are
    Leibniz equalities of the rational terms the program builds; bounds are
    stated with [Qle] / [Qlt]. *)

From Stdlib Require Import QArith ZArith List Lqa Lia Qround.
Import ListNotations.

Local Open Scope Q_scope.

(** The C comparison [x < y] of two floats ([x > y] is [Qltb y x]). *)
Definition Qltb (x y : Q) : bool :=
  (Qnum x * QDen y <? Qnum y * QDen x)%Z.

(** ** Macros of commonLib.h *)

(** Modelled from the spec: [LIMIT_MIN_MAX_VALUE] is a macro of commonLib.h,
    which is not part of the sources at hand.  The specification describes
    every use of it as a clamp of the value to the closed interval
    [[lo, hi]]; the argument is taken as already evaluated, once. *)
Definition LIMIT_MIN_MAX_VALUE (x lo hi : Q) : Q :=
  if Qltb x lo then lo
  else if Qltb hi x then hi
  else x.

(** Modelled from the spec: [min] and [max] are macros of commonLib.h; the
    specification uses them as the smaller and the larger of two values. *)
Definition min (a b : Q) : Q := if Qltb a b then a else b.

Definition max (a b : Q) : Q := if Qltb b a then a else b.

(** The conversion [(unsigned short) x] of a float: the fractional part is
    discarded (truncation toward zero).  C leaves the conversion undefined
    when the integral part does not fit in 16 bits; the model reduces it
    modulo 2^16, so the result is always an unsigned 16-bit value. *)
Definition truncate (x : Q) : Z := Z.quot (Qnum x) (Zpos (Qden x)).

Definition float_to_unsigned_short (x : Q) : Z := (truncate x mod 65536)%Z.

(** ** The file-scope state of flyControler.c *)

Record FlyState : Type := mkFlyState {
  leaveFlyControler : bool;
  rollAttitudeOutput : Q;
  pitchAttitudeOutput : Q;
  yawAttitudeOutput : Q;
  altHoltAltOutput : Q;
  adjustPeriod : Z;
  angularLimit : Q;
  gyroLimit : Q;
  yawCenterPoint : Q;
  maxThrottleOffset : Q;
  altitudePidOutputLimitation : Q
}.

(** C zero-initialises objects of static storage duration. *)
Definition fly_zero : FlyState :=
  mkFlyState false 0 0 0 0 0%Z 0 0 0 0 0.

Definition set_leaveFlyControler (v : bool) (s : FlyState) : FlyState :=
  mkFlyState v (rollAttitudeOutput s) (pitchAttitudeOutput s)
    (yawAttitudeOutput s) (altHoltAltOutput s) (adjustPeriod s)
    (angularLimit s) (gyroLimit s) (yawCenterPoint s) (maxThrottleOffset s)
    (altitudePidOutputLimitation s).

Definition set_rollAttitudeOutput (v : Q) (s : FlyState) : FlyState :=
  mkFlyState (leaveFlyControler s) v (pitchAttitudeOutput s)
    (yawAttitudeOutput s) (altHoltAltOutput s) (adjustPeriod s)
    (angularLimit s) (gyroLimit s) (yawCenterPoint s) (maxThrottleOffset s)
    (altitudePidOutputLimitation s).

Definition set_pitchAttitudeOutput (v : Q) (s : FlyState) : FlyState :=
  mkFlyState (leaveFlyControler s) (rollAttitudeOutput s) v
    (yawAttitudeOutput s) (altHoltAltOutput s) (adjustPeriod s)
    (angularLimit s) (gyroLimit s) (yawCenterPoint s) (maxThrottleOffset s)
    (altitudePidOutputLimitation s).

Definition set_yawAttitudeOutput (v : Q) (s : FlyState) : FlyState :=
  mkFlyState (leaveFlyControler s) (rollAttitudeOutput s)
    (pitchAttitudeOutput s) v (altHoltAltOutput s) (adjustPeriod s)
    (angularLimit s) (gyroLimit s) (yawCenterPoint s) (maxThrottleOffset s)
    (altitudePidOutputLimitation s).

Definition set_altHoltAltOutput (v : Q) (s : FlyState) : FlyState :=
  mkFlyState (leaveFlyControler s) (rollAttitudeOutput s)
    (pitchAttitudeOutput s) (yawAttitudeOutput s) v (adjustPeriod s)
    (angularLimit s) (gyroLimit s) (yawCenterPoint s) (maxThrottleOffset s)
    (altitudePidOutputLimitation s).

Definition set_adjustPeriod (v : Z) (s : FlyState) : FlyState :=
  mkFlyState (leaveFlyControler s) (rollAttitudeOutput s)
    (pitchAttitudeOutput s) (yawAttitudeOutput s) (altHoltAltOutput s) v
    (angularLimit s) (gyroLimit s) (yawCenterPoint s) (maxThrottleOffset s)
    (altitudePidOutputLimitation s).

Definition set_angularLimit (v : Q) (s : FlyState) : FlyState :=
  mkFlyState (leaveFlyControler s) (rollAttitudeOutput s)
    (pitchAttitudeOutput s) (yawAttitudeOutput s) (altHoltAltOutput s)
    (adjustPeriod s) v (gyroLimit s) (yawCenterPoint s) (maxThrottleOffset s)
    (altitudePidOutputLimitation s).

Definition set_gyroLimit (v : Q) (s : FlyState) : FlyState :=
  mkFlyState (leaveFlyControler s) (rollAttitudeOutput s)
    (pitchAttitudeOutput s) (yawAttitudeOutput s) (altHoltAltOutput s)
    (adjustPeriod s) (angularLimit s) v (yawCenterPoint s)
    (maxThrottleOffset s) (altitudePidOutputLimitation s).

Definition set_yawCenterPoint (v : Q) (s : FlyState) : FlyState :=
  mkFlyState (leaveFlyControler s) (rollAttitudeOutput s)
    (pitchAttitudeOutput s) (yawAttitudeOutput s) (altHoltAltOutput s)
    (adjustPeriod s) (angularLimit s) (gyroLimit s) v (maxThrottleOffset s)
    (altitudePidOutputLimitation s).

Definition set_maxThrottleOffset (v : Q) (s : FlyState) : FlyState :=
  mkFlyState (leaveFlyControler s) (rollAttitudeOutput s)
    (pitchAttitudeOutput s) (yawAttitudeOutput s) (altHoltAltOutput s)
    (adjustPeriod s) (angularLimit s) (gyroLimit s) (yawCenterPoint s) v
    (altitudePidOutputLimitation s).

Definition set_altitudePidOutputLimitation (v : Q) (s : FlyState)
  : FlyState :=
  mkFlyState (leaveFlyControler s) (rollAttitudeOutput s)
    (pitchAttitudeOutput s) (yawAttitudeOutput s) (altHoltAltOutput s)
    (adjustPeriod s) (angularLimit s) (gyroLimit s) (yawCenterPoint s)
    (maxThrottleOffset s) v.

(** ** Objects the file reaches through pointers and indices *)

(** The four motors, named as the index constants of motorControl.h. *)
Inductive Motor : Type :=
| SOFT_PWM_CCW1
| SOFT_PWM_CW1
| SOFT_PWM_CCW2
| SOFT_PWM_CW2.

Definition Motor_eqb (a b : Motor) : bool :=
  match a, b with
  | SOFT_PWM_CCW1, SOFT_PWM_CCW1 => true
  | SOFT_PWM_CW1, SOFT_PWM_CW1 => true
  | SOFT_PWM_CCW2, SOFT_PWM_CCW2 => true
  | SOFT_PWM_CW2, SOFT_PWM_CW2 => true
  | _, _ => false
  end.

(** The nine PID controller objects of pid.c whose addresses the file
    passes to [pidCalculation] and [setPidSp]. *)
Inductive PidId : Type :=
| rollAttitudePidSettings
| pitchAttitudePidSettings
| yawAttitudePidSettings
| rollRatePidSettings
| pitchRatePidSettings
| yawRatePidSettings
| altHoldAltSettings
| altHoldlSpeedSettings
| verticalAccelPidSettings.

Definition PidId_eqb (a b : PidId) : bool :=
  match a, b with
  | rollAttitudePidSettings, rollAttitudePidSettings => true
  | pitchAttitudePidSettings, pitchAttitudePidSettings => true
  | yawAttitudePidSettings, yawAttitudePidSettings => true
  | rollRatePidSettings, rollRatePidSettings => true
  | pitchRatePidSettings, pitchRatePidSettings => true
  | yawRatePidSettings, yawRatePidSettings => true
  | altHoldAltSettings, altHoldAltSettings => true
  | altHoldlSpeedSettings, altHoldlSpeedSettings => true
  | verticalAccelPidSettings, verticalAccelPidSettings => true
  | _, _ => false
  end.

(** Update of a store indexed by motors or by controller objects. *)
Definition upd_motor {A : Type} (m : Motor) (v : A) (f : Motor -> A)
  : Motor -> A :=
  fun m' => if Motor_eqb m m' then v else f m'.

Definition upd_pid {A : Type} (i : PidId) (v : A) (f : PidId -> A)
  : PidId -> A :=
  fun i' => if PidId_eqb i i' then v else f i'.

(** ** External collaborators *)

(** The PID primitive of pid.c and the system switch of systemControl.c are
    declared in headers only; the flight controller is verified for every
    implementation of them.  [pidCalculation_struct] returns the controller
    after the evaluation (integral and previous error updated) and the
    output; [setPidSp_struct] returns the controller with its new
    setpoint. *)
Class Collaborators : Type := {
  PID_STRUCT : Type;
  pidCalculation_struct :
    PID_STRUCT -> Q -> bool -> bool -> bool -> PID_STRUCT * Q;
  setPidSp_struct : PID_STRUCT -> Q -> PID_STRUCT;
  SystemControl : Type;
  disenableFlySystem_state : SystemControl -> SystemControl
}.

(** What the getters of the other modules return during one call: the
    orientation and angular rates (attitudeUpdate.h), the altitude-hold
    readings and gates (altHold.h), the throttle and power bounds
    (motorControl.h) and the limit of the mixed correction (pid.h).
    [updateAltHold] is the value the period gate returns if it is called.
    The headers that give the return types are not at hand: every numeric
    reading is a rational, which covers integer power levels as well, and
    the [(float)] casts of the file are then the identity.  A getter called
    several times in one call returns the same value each time. *)
Record Inputs : Type := mkInputs {
  getRoll : Q;
  getPitch : Q;
  getYaw : Q;
  getRollGyro : Q;
  getPitchGyro : Q;
  getYawGyro : Q;
  getCurrentAltHoldAltitude : Q;
  getTargetAlt : Q;
  getAltholdSpeed : Q;
  getVerticalAcceleration : Q;
  getEnableAltHold : bool;
  getAltHoldIsReady : bool;
  updateAltHold : bool;
  getThrottlePowerLevel : Q;
  getAdjustPowerLeveRange : Q;
  getMaxPowerLeve : Q;
  getMinPowerLevel : Q;
  getPidOutputLimitation : Q
}.

(** The locals of [motorControler] when it returns. *)
Record MotorControlerLocals : Type := mkLocals {
  rollRateOutput : Q;
  rollCcw1 : Q;
  rollCcw2 : Q;
  rollCw1 : Q;
  rollCw2 : Q;
  pitchRateOutput : Q;
  pitchCcw1 : Q;
  pitchCcw2 : Q;
  pitchCw1 : Q;
  pitchCw2 : Q;
  yawRateOutput : Q;
  yawCcw1 : Q;
  yawCcw2 : Q;
  yawCw1 : Q;
  yawCw2 : Q;
  outCcw1 : Q;
  outCcw2 : Q;
  outCw1 : Q;
  outCw2 : Q;
  maxLimit : Q;
  minLimit : Q;
  accelThrottleOffset : Q;
  altholdThrottleOffset : Q;
  throttleOffset : Q;
  centerThrottle : Q
}.

(** ** A state monad for the C functions *)

Definition State (S A : Type) : Type := S -> A * S.

Definition ret {S A : Type} (a : A) : State S A := fun s => (a, s).

Definition bind {S A B : Type} (c : State S A) (k : A -> State S B)
  : State S B :=
  fun s => let r := c s in k (fst r) (snd r).

Definition gets {S A : Type} (f : S -> A) : State S A := fun s => (f s, s).

Definition modify {S : Type} (f : S -> S) : State S unit :=
  fun s => (tt, f s).

Declare Scope fly_scope.
Delimit Scope fly_scope with fly.

Notation "x <- c ;; k" := (bind c (fun x => k))
  (at level 61, c at next level, right associativity) : fly_scope.
Notation "c ;; k" := (bind c (fun _ => k))
  (at level 61, right associativity) : fly_scope.

Section FlyControler.

Context {ext : Collaborators}.

(** Everything a call of the file can read or write: its own statics, the
    controller objects of pid.c, the gains and commanded power levels of
    motorControl.c, and the state of systemControl.c. *)
Record World : Type := mkWorld {
  fly : FlyState;
  pid : PidId -> PID_STRUCT;
  motorGain : Motor -> Q;
  motorPowerLevel : Motor -> Z;
  systemControl : SystemControl
}.

Definition set_fly (f : FlyState) (w : World) : World :=
  mkWorld f (pid w) (motorGain w) (motorPowerLevel w) (systemControl w).

Definition set_pid (p : PidId -> PID_STRUCT) (w : World) : World :=
  mkWorld (fly w) p (motorGain w) (motorPowerLevel w) (systemControl w).

Definition set_motorGain (g : Motor -> Q) (w : World) : World :=
  mkWorld (fly w) (pid w) g (motorPowerLevel w) (systemControl w).

Definition set_motorPowerLevel (l : Motor -> Z) (w : World) : World :=
  mkWorld (fly w) (pid w) (motorGain w) l (systemControl w).

Definition set_systemControl (c : SystemControl) (w : World) : World :=
  mkWorld (fly w) (pid w) (motorGain w) (motorPowerLevel w) c.

Definition M (A : Type) : Type := State World A.

Definition modify_fly (f : FlyState -> FlyState) : M unit :=
  modify (fun w => set_fly (f (fly w)) w).

(** *** Calls into the other modules *)

(** [pidCalculation(&c, processValue, p, i, d)]: evaluates controller [c]
    in place and returns its output. *)
Definition pidCalculation (c : PidId) (processValue : Q) (p i d : bool)
  : M Q :=
  fun w =>
    let r := pidCalculation_struct (pid w c) processValue p i d in
    (snd r, set_pid (upd_pid c (fst r) (pid w)) w).

(** [setPidSp(&c, sp)]. *)
Definition setPidSp (c : PidId) (sp : Q) : M unit :=
  modify (fun w => set_pid (upd_pid c (setPidSp_struct (pid w c) sp) (pid w)) w).

Definition disenableFlySystem : M unit :=
  modify (fun w => set_systemControl (disenableFlySystem_state (systemControl w)) w).

(** Modelled from the spec: [setMotorGain] and [getMotorGain] belong to
    motorControl.c, which is not part of the sources at hand.  The
    specification keeps one multiplicative gain per motor ([motorGain[4]]),
    written by the setter and read back by the getter. *)
Definition setMotorGain (index : Motor) (value : Q) : M unit :=
  modify (fun w => set_motorGain (upd_motor index value (motorGain w)) w).

Definition getMotorGain (index : Motor) : M Q :=
  gets (fun w => motorGain w index).

(** Modelled from the spec: the four [setup*MotorPoewrLevel] functions of
    motorControl.c are the motor actuation sink; each accepts the 16-bit
    power level of its own motor. *)
Definition setupCcw1MotorPoewrLevel (v : Z) : M unit :=
  modify (fun w => set_motorPowerLevel (upd_motor SOFT_PWM_CCW1 v (motorPowerLevel w)) w).

Definition setupCcw2MotorPoewrLevel (v : Z) : M unit :=
  modify (fun w => set_motorPowerLevel (upd_motor SOFT_PWM_CCW2 v (motorPowerLevel w)) w).

Definition setupCw1MotorPoewrLevel (v : Z) : M unit :=
  modify (fun w => set_motorPowerLevel (upd_motor SOFT_PWM_CW1 v (motorPowerLevel w)) w).

Definition setupCw2MotorPoewrLevel (v : Z) : M unit :=
  modify (fun w => set_motorPowerLevel (upd_motor SOFT_PWM_CW2 v (motorPowerLevel w)) w).

Local Open Scope fly_scope.

(** *** Setters and getters of the configuration store *)

Definition setLeaveFlyControlerFlag (v : bool) : M unit :=
  modify_fly (set_leaveFlyControler v).

Definition getLeaveFlyControlerFlag : M bool :=
  gets (fun w => leaveFlyControler (fly w)).

Definition setGyroLimit (limitation : Q) : M unit :=
  modify_fly (set_gyroLimit limitation).

Definition getGyroLimit : M Q := gets (fun w => gyroLimit (fly w)).

Definition setAdjustPeriod (period : Z) : M unit :=
  modify_fly (set_adjustPeriod period).

Definition getAdjustPeriod : M Z := gets (fun w => adjustPeriod (fly w)).

Definition setAngularLimit (angular : Q) : M unit :=
  modify_fly (set_angularLimit angular).

Definition getAngularLimit : M Q := gets (fun w => angularLimit (fly w)).

Definition setAltitudePidOutputLimitation (v : Q) : M unit :=
  modify_fly (set_altitudePidOutputLimitation v).

Definition getAltitudePidOutputLimitation : M Q :=
  gets (fun w => altitudePidOutputLimitation (fly w)).

(** *** Yaw center point *)

Definition setYawCenterPoint (point : Q) : M unit :=
  let yawCenterPoint1 := point in
  let yawCenterPoint1 :=
    if Qltb 180 yawCenterPoint1 then yawCenterPoint1 - 360
    else if Qltb yawCenterPoint1 (-180) then yawCenterPoint1 + 360
    else yawCenterPoint1 in
  modify_fly (set_yawCenterPoint yawCenterPoint1).

Definition getYawCenterPoint : M Q := gets (fun w => yawCenterPoint (fly w)).

Definition yawTransform (originPoint : Q) : M Q :=
  center <- gets (fun w => yawCenterPoint (fly w)) ;;
  let output := originPoint - center in
  ret (if Qltb 180 output then output - 360
       else if Qltb output (-180) then output + 360
       else output).

(** *** Initialisation *)

(** [pthread_mutex_init_result] is what [pthread_mutex_init] returns for the
    motor-control lock; it fails exactly when the result is not 0. *)
Definition flyControlerInit (pthread_mutex_init_result : Z) : M bool :=
  if negb (pthread_mutex_init_result =? 0)%Z then ret false
  else
    setLeaveFlyControlerFlag false ;;
    disenableFlySystem ;;
    setAdjustPeriod 1%Z ;;
    setGyroLimit 50 ;;
    setAngularLimit 5000 ;;
    setMotorGain SOFT_PWM_CCW1 1 ;;
    setMotorGain SOFT_PWM_CW1 1 ;;
    setMotorGain SOFT_PWM_CCW2 1 ;;
    setMotorGain SOFT_PWM_CW2 1 ;;
    setAltitudePidOutputLimitation 15 ;;
    modify_fly (set_rollAttitudeOutput 0) ;;
    modify_fly (set_pitchAttitudeOutput 0) ;;
    modify_fly (set_yawAttitudeOutput 0) ;;
    modify_fly (set_altHoltAltOutput 0) ;;
    modify_fly (set_maxThrottleOffset 1000) ;;
    ret true.

(** *** Attitude and rate stages *)

Definition getAttitudePidOutput (e : Inputs) : M unit :=
  rollPid <- pidCalculation rollAttitudePidSettings (getRoll e)
               true true true ;;
  limit <- getGyroLimit ;;
  modify_fly (set_rollAttitudeOutput
                (LIMIT_MIN_MAX_VALUE rollPid (- limit) limit)) ;;
  pitchPid <- pidCalculation pitchAttitudePidSettings (getPitch e)
                true true true ;;
  limit <- getGyroLimit ;;
  modify_fly (set_pitchAttitudeOutput
                (LIMIT_MIN_MAX_VALUE pitchPid (- limit) limit)) ;;
  yaw <- yawTransform (getYaw e) ;;
  yawPid <- pidCalculation yawAttitudePidSettings yaw true true true ;;
  limit <- getGyroLimit ;;
  modify_fly (set_yawAttitudeOutput
                (LIMIT_MIN_MAX_VALUE yawPid (- limit) limit)).

(** The three output parameters are returned as a triple
    (roll, pitch, yaw). *)
Definition getRatePidOutput (e : Inputs) : M (Q * Q * Q) :=
  rollSp <- gets (fun w => rollAttitudeOutput (fly w)) ;;
  setPidSp rollRatePidSettings rollSp ;;
  pitchSp <- gets (fun w => pitchAttitudeOutput (fly w)) ;;
  setPidSp pitchRatePidSettings pitchSp ;;
  yawSp <- gets (fun w => yawAttitudeOutput (fly w)) ;;
  setPidSp yawRatePidSettings yawSp ;;
  rollRateOutput <- pidCalculation rollRatePidSettings (getRollGyro e)
                      true true true ;;
  pitchRateOutput <- pidCalculation pitchRatePidSettings (getPitchGyro e)
                       true true true ;;
  yawRateOutput <- pidCalculation yawRatePidSettings (getYawGyro e)
                     true true true ;;
  ret (rollRateOutput, pitchRateOutput, yawRateOutput).

(** *** Throttle offsets *)

Definition getAltHoldAltPidOutput (e : Inputs) : M unit :=
  altPid <- pidCalculation altHoldAltSettings
              (getCurrentAltHoldAltitude e - getTargetAlt e)
              true true true ;;
  limit <- getAltitudePidOutputLimitation ;;
  modify_fly (set_altHoltAltOutput
                (LIMIT_MIN_MAX_VALUE altPid (- limit) limit)).

Definition getAltHoldSpeedPidOutput (e : Inputs) : M Q :=
  sp <- gets (fun w => altHoltAltOutput (fly w)) ;;
  setPidSp altHoldlSpeedSettings sp ;;
  pidCalculation altHoldlSpeedSettings (getAltholdSpeed e) true true true.

Definition getThrottleOffsetByAltHold (e : Inputs)
  (updateAltHoldOffset : bool) : M Q :=
  let output := 0 in
  if updateAltHoldOffset then
    getAltHoldAltPidOutput e ;;
    output <- getAltHoldSpeedPidOutput e ;;
    limit <- gets (fun w => maxThrottleOffset (fly w)) ;;
    ret (LIMIT_MIN_MAX_VALUE output (- limit) limit)
  else ret output.

Definition getThrottleOffsetByAcceleration (e : Inputs) : M Q :=
  setPidSp verticalAccelPidSettings 0 ;;
  accelPid <- pidCalculation verticalAccelPidSettings
                (getVerticalAcceleration e) true true true ;;
  limit <- gets (fun w => maxThrottleOffset (fly w)) ;;
  ret (LIMIT_MIN_MAX_VALUE accelPid (- limit) limit).

(** *** The motor mixer *)

Definition motorControler (e : Inputs) : M MotorControlerLocals :=
  altholdThrottleOffset <-
    (if getEnableAltHold e && getAltHoldIsReady e
     then getThrottleOffsetByAltHold e (updateAltHold e)
     else ret 0) ;;
  accelThrottleOffset <- getThrottleOffsetByAcceleration e ;;
  let throttleOffset := altholdThrottleOffset + accelThrottleOffset in
  let centerThrottle := getThrottlePowerLevel e + throttleOffset in
  let maxLimit :=
    min (centerThrottle + getAdjustPowerLeveRange e) (getMaxPowerLeve e) in
  let minLimit :=
    max (centerThrottle - getAdjustPowerLeveRange e) (getMinPowerLevel e) in
  getAttitudePidOutput e ;;
  rates <- getRatePidOutput e ;;
  let rollRateOutput := fst (fst rates) in
  let pitchRateOutput := snd (fst rates) in
  let yawRateOutput := snd rates in
  let rollCcw1 := rollRateOutput in
  let rollCcw2 := - rollRateOutput in
  let rollCw1 := - rollRateOutput in
  let rollCw2 := rollRateOutput in
  let pitchCcw1 := - pitchRateOutput in
  let pitchCcw2 := pitchRateOutput in
  let pitchCw1 := - pitchRateOutput in
  let pitchCw2 := pitchRateOutput in
  let yawCcw1 := yawRateOutput in
  let yawCcw2 := yawRateOutput in
  let yawCw1 := - yawRateOutput in
  let yawCw2 := - yawRateOutput in
  let limit := getPidOutputLimitation e in
  let outCcw1 :=
    centerThrottle
    + LIMIT_MIN_MAX_VALUE (rollCcw1 + pitchCcw1 + yawCcw1) (- limit) limit in
  let outCcw2 :=
    centerThrottle
    + LIMIT_MIN_MAX_VALUE (rollCcw2 + pitchCcw2 + yawCcw2) (- limit) limit in
  let outCw1 :=
    centerThrottle
    + LIMIT_MIN_MAX_VALUE (rollCw1 + pitchCw1 + yawCw1) (- limit) limit in
  let outCw2 :=
    centerThrottle
    + LIMIT_MIN_MAX_VALUE (rollCw2 + pitchCw2 + yawCw2) (- limit) limit in
  gainCcw1 <- getMotorGain SOFT_PWM_CCW1 ;;
  let outCcw1 := gainCcw1 * LIMIT_MIN_MAX_VALUE outCcw1 minLimit maxLimit in
  gainCcw2 <- getMotorGain SOFT_PWM_CCW2 ;;
  let outCcw2 := gainCcw2 * LIMIT_MIN_MAX_VALUE outCcw2 minLimit maxLimit in
  gainCw1 <- getMotorGain SOFT_PWM_CW1 ;;
  let outCw1 := gainCw1 * LIMIT_MIN_MAX_VALUE outCw1 minLimit maxLimit in
  gainCw2 <- getMotorGain SOFT_PWM_CW2 ;;
  let outCw2 := gainCw2 * LIMIT_MIN_MAX_VALUE outCw2 minLimit maxLimit in
  setupCcw1MotorPoewrLevel (float_to_unsigned_short outCcw1) ;;
  setupCcw2MotorPoewrLevel (float_to_unsigned_short outCcw2) ;;
  setupCw1MotorPoewrLevel (float_to_unsigned_short outCw1) ;;
  setupCw2MotorPoewrLevel (float_to_unsigned_short outCw2) ;;
  ret (mkLocals rollRateOutput rollCcw1 rollCcw2 rollCw1 rollCw2
         pitchRateOutput pitchCcw1 pitchCcw2 pitchCw1 pitchCw2
         yawRateOutput yawCcw1 yawCcw2 yawCw1 yawCw2
         outCcw1 outCcw2 outCw1 outCw2
         maxLimit minLimit accelThrottleOffset altholdThrottleOffset
         throttleOffset centerThrottle).

(** *** The operations the file exposes *)

(** One constructor per function with external linkage, with its
    arguments and the readings of the collaborators it consults. *)
Inductive Op : Type :=
| Op_flyControlerInit (pthread_mutex_init_result : Z)
| Op_setLeaveFlyControlerFlag (v : bool)
| Op_getLeaveFlyControlerFlag
| Op_getRatePidOutput (e : Inputs)
| Op_motorControler (e : Inputs)
| Op_setYawCenterPoint (point : Q)
| Op_getYawCenterPoint
| Op_yawTransform (originPoint : Q)
| Op_setGyroLimit (limitation : Q)
| Op_getGyroLimit
| Op_setAdjustPeriod (period : Z)
| Op_getAdjustPeriod
| Op_setAngularLimit (angular : Q)
| Op_getAngularLimit
| Op_setAltitudePidOutputLimitation (v : Q)
| Op_getAltitudePidOutputLimitation.

(** The state a call leaves behind. *)
Definition exec (o : Op) (w : World) : World :=
  match o with
  | Op_flyControlerInit r => snd (flyControlerInit r w)
  | Op_setLeaveFlyControlerFlag v => snd (setLeaveFlyControlerFlag v w)
  | Op_getLeaveFlyControlerFlag => snd (getLeaveFlyControlerFlag w)
  | Op_getRatePidOutput e => snd (getRatePidOutput e w)
  | Op_motorControler e => snd (motorControler e w)
  | Op_setYawCenterPoint p => snd (setYawCenterPoint p w)
  | Op_getYawCenterPoint => snd (getYawCenterPoint w)
  | Op_yawTransform y => snd (yawTransform y w)
  | Op_setGyroLimit l => snd (setGyroLimit l w)
  | Op_getGyroLimit => snd (getGyroLimit w)
  | Op_setAdjustPeriod p => snd (setAdjustPeriod p w)
  | Op_getAdjustPeriod => snd (getAdjustPeriod w)
  | Op_setAngularLimit a => snd (setAngularLimit a w)
  | Op_getAngularLimit => snd (getAngularLimit w)
  | Op_setAltitudePidOutputLimitation v =>
      snd (setAltitudePidOutputLimitation v w)
  | Op_getAltitudePidOutputLimitation =>
      snd (getAltitudePidOutputLimitation w)
  end.

Fixpoint run (ops : list Op) (w : World) : World :=
  match ops with
  | [] => w
  | o :: rest => run rest (exec o w)
  end.

End FlyControler.

(** ** The mixer as the specification words it *)

Inductive Axis : Type :=
| Roll
| Pitch
| Yaw.

(** The sign table of the motor mixer (specification, 4.7). *)
Definition sign (m : Motor) (a : Axis) : Q :=
  match m, a with
  | SOFT_PWM_CCW1, Roll => 1
  | SOFT_PWM_CCW1, Pitch => (-1)
  | SOFT_PWM_CCW1, Yaw => 1
  | SOFT_PWM_CCW2, Roll => (-1)
  | SOFT_PWM_CCW2, Pitch => 1
  | SOFT_PWM_CCW2, Yaw => 1
  | SOFT_PWM_CW1, Roll => (-1)
  | SOFT_PWM_CW1, Pitch => (-1)
  | SOFT_PWM_CW1, Yaw => (-1)
  | SOFT_PWM_CW2, Roll => 1
  | SOFT_PWM_CW2, Pitch => 1
  | SOFT_PWM_CW2, Yaw => (-1)
  end.

(** "roll·sign + pitch·sign + yaw·sign per the fixed sign table". *)
Definition spec_correction (m : Motor) (R P Y : Q) : Q :=
  R * sign m Roll + P * sign m Pitch + Y * sign m Yaw.




(** The sum the mixer hands to the combined clamp, per motor, read off the
    locals of [motorControler]. *)
Definition correction (l : MotorControlerLocals) (m : Motor) : Q :=
  match m with
  | SOFT_PWM_CCW1 => rollCcw1 l + pitchCcw1 l + yawCcw1 l
  | SOFT_PWM_CCW2 => rollCcw2 l + pitchCcw2 l + yawCcw2 l
  | SOFT_PWM_CW1 => rollCw1 l + pitchCw1 l + yawCw1 l
  | SOFT_PWM_CW2 => rollCw2 l + pitchCw2 l + yawCw2 l
  end.

(** ** A concrete set of collaborators

    A proportional controller (the controller object is its setpoint, the
    output is setpoint minus measurement) and a one-flag system switch: an
    instance on which the functions can be run. *)
#[local] Instance proportional : Collaborators := {|
  PID_STRUCT := Q;
  pidCalculation_struct := fun sp pv _ _ _ => (sp, sp - pv);
  setPidSp_struct := fun _ sp => sp;
  SystemControl := bool;
  disenableFlySystem_state := fun _ => false
|}.

(** The state of a freshly loaded program: zeroed statics, controllers with
    setpoint 0, zero gains and power levels, the system enabled. *)
Definition world_zero : @World proportional :=
  mkWorld fly_zero (fun _ => 0) (fun _ => 0) (fun _ => 0%Z) true.

(** The state after a successful [flyControlerInit]. *)
Definition world_init : @World proportional :=
  snd (flyControlerInit 0 world_zero).

(** Readings of a hovering vehicle: altitude hold enabled, ready and due. *)
Definition inputs_hover : Inputs :=
  mkInputs 2 (-3) 10 1 (-1) 0 120 100 4 (1 # 2)
    true true true 1500 200 2000 1000 300.

(** The same readings with altitude hold switched off. *)
Definition inputs_manual : Inputs :=
  mkInputs 2 (-3) 10 1 (-1) 0 120 100 4 (1 # 2)
    false true true 1500 200 2000 1000 300.

(** Readings for the saturation scenario of the specification: a roll of
    -120 (attitude evaluation 120 against gyro limit 50), a roll rate of -30
    (rate evaluation 80), mixer limit 30, throttle 1500, altitude hold off. *)
Definition inputs_scenario : Inputs :=
  mkInputs (-120) 0 0 (-30) 0 0 0 0 0 0
    false false false 1500 200 2000 1000 30.

(** A state whose yaw center point is 170. *)
Definition world_yaw : @World proportional :=
  snd (setYawCenterPoint 170 world_init).

(** A sequence of calls after initialisation: a reconfiguration, a tick, a
    failed and a successful re-initialisation, a new yaw center. *)
Definition calls_after_init : list Op :=
  [Op_setGyroLimit 80; Op_motorControler inputs_hover;
   Op_flyControlerInit 1; Op_setAltitudePidOutputLimitation 3;
   Op_flyControlerInit 0; Op_setYawCenterPoint 200;
   Op_getRatePidOutput inputs_manual].

(** The final value of the per-motor local ([outCcw1], [outCcw2], [outCw1],
    [outCw2]) of [motorControler]: the float handed to the cast. *)
Definition out (l : MotorControlerLocals) (m : Motor) : Q :=
  match m with
  | SOFT_PWM_CCW1 => outCcw1 l
  | SOFT_PWM_CCW2 => outCcw2 l
  | SOFT_PWM_CW1 => outCw1 l
  | SOFT_PWM_CW2 => outCw2 l
  end.

(** A call whose yaw center argument, if it has one, is within one wrap
    step of [[-180, 180]]. *)
Definition yaw_argument_ok (o : Op) : bool :=
  match o with
  | Op_setYawCenterPoint p => Qle_bool (-540) p && Qle_bool p 540
  | _ => true
  end.

(** A state that differs from [world_init] in the halt flag, the adjust
    period, the angular limit, the cached stage outputs and the commanded
    power levels only. *)
Definition world_stale : @World proportional :=
  set_motorPowerLevel (fun _ => 7%Z)
    (set_fly
       (mkFlyState true 11 (-12) 13 14 9%Z 77 50 0 1000 15)
       world_init).

(** Calls that keep the yaw center within reach of the wrap. *)
Definition calls_yaw : list Op :=
  [Op_setYawCenterPoint 350; Op_motorControler inputs_hover;
   Op_flyControlerInit 0; Op_setYawCenterPoint (-200);
   Op_setGyroLimit 20].

(** ** Properties *)

Section Properties.

Context {ext : Collaborators}.

(** Splits a goal into its conjuncts, without touching the conjuncts. *)
Ltac conjuncts :=
  repeat match goal with
         | |- _ /\ _ => split
         end.

(** Names the readings and decides the three altitude-hold gates. *)
Ltac by_gates e :=
  destruct e as [ro pi ya rg pg yg ca ta sp va en rdy upd th rng mx mn lim];
  destruct en, rdy, upd.

(** Runs the program on the named readings, leaving the arithmetic, the
    comparisons and the clamps folded. *)
Ltac run_program :=
  lazy - [Qplus Qminus Qopp Qmult Qltb LIMIT_MIN_MAX_VALUE min max
          float_to_unsigned_short].

Ltac by_run e := by_gates e; run_program; reflexivity.

(** *** Clamps and conversions *)

Lemma Qltb_spec (x y : Q) : BoolSpec (x < y) (y <= x) (Qltb x y).
Proof.
  unfold Qltb, Qlt, Qle.
  destruct (Z.ltb_spec (Qnum x * QDen y) (Qnum y * QDen x));
    constructor; assumption.
Qed.

Lemma LIMIT_MIN_MAX_VALUE_bounds (x lo hi : Q) :
  lo <= hi -> lo <= LIMIT_MIN_MAX_VALUE x lo hi <= hi.
Proof.
  intros Hlh. unfold LIMIT_MIN_MAX_VALUE.
  destruct (Qltb_spec x lo) as [Hlo | Hlo].
  - split; [apply Qle_refl | exact Hlh].
  - destruct (Qltb_spec hi x) as [Hhi | Hhi].
    + split; [exact Hlh | apply Qle_refl].
    + split; assumption.
Qed.

Lemma LIMIT_MIN_MAX_VALUE_inside (x lo hi : Q) :
  lo <= x <= hi -> LIMIT_MIN_MAX_VALUE x lo hi = x.
Proof.
  intros [Hlo Hhi]. unfold LIMIT_MIN_MAX_VALUE.
  destruct (Qltb_spec x lo) as [H | H]; [lra |].
  destruct (Qltb_spec hi x) as [H' | H']; [lra | reflexivity].
Qed.

Lemma LIMIT_MIN_MAX_VALUE_symmetric (x limit : Q) :
  0 <= limit ->
  - limit <= LIMIT_MIN_MAX_VALUE x (- limit) limit <= limit.
Proof.
  intros H. apply LIMIT_MIN_MAX_VALUE_bounds. lra.
Qed.


Lemma truncate_nonneg_floor (x : Q) : 0 <= x -> truncate x = Qfloor x.
Proof.
  destruct x as [n d]. unfold Qle, truncate, Qfloor. simpl.
  intros H. rewrite Z.mul_1_r in H.
  apply Z.quot_div_nonneg; lia.
Qed.

Lemma float_to_unsigned_short_in_range (x : Q) :
  0 <= x -> x < 65536 -> float_to_unsigned_short x = Qfloor x.
Proof.
  intros H0 H1. unfold float_to_unsigned_short.
  rewrite (truncate_nonneg_floor x H0).
  apply Z.mod_small. split.
  - change 0%Z with (Qfloor 0). apply Qfloor_resp_le. exact H0.
  - assert (Hf : inject_Z (Qfloor x) < inject_Z 65536).
    { apply Qle_lt_trans with x; [apply Qfloor_le | exact H1]. }
    rewrite <- Zlt_Qlt in Hf. exact Hf.
Qed.

(** *** Yaw center point *)

(** C8.  For every [p] in [[-540, 540]], [setYawCenterPoint p] followed by
    [getYawCenterPoint] yields a value in [[-180, 180]] which is [p - 360]
    when [p > 180], [p + 360] when [p < -180] and [p] itself otherwise (so
    the boundaries 180 and -180 are left as they are). *)
Theorem setYawCenterPoint_getYawCenterPoint (w : World) (p : Q) :
  (-540) <= p <= 540 ->
  let c := fst (getYawCenterPoint (snd (setYawCenterPoint p w))) in
  (-180) <= c <= 180
  /\ (180 < p -> c = p - 360)
  /\ (p < (-180) -> c = p + 360)
  /\ (-180 <= p <= 180 -> c = p).
Proof.
  intros [Hlo Hhi] c. subst c.
  unfold setYawCenterPoint, getYawCenterPoint, modify_fly, modify, gets.
  cbn [fst snd fly set_fly yawCenterPoint set_yawCenterPoint].
  destruct (Qltb_spec 180 p) as [H1 | H1];
    [| destruct (Qltb_spec p (-180)) as [H2 | H2]].
  - split; [lra |].
    split; [reflexivity |].
    split; [intros | intros []]; exfalso; lra.
  - split; [lra |].
    split; [intros; exfalso; lra |].
    split; [reflexivity | intros []; exfalso; lra].
  - split; [lra |].
    split; [intros; exfalso; lra |].
    split; [intros; exfalso; lra | reflexivity].
Qed.

(** C7 (amended).  If the difference [y - yawCenterPoint] lies in
    [[-540, 540]] then [yawTransform y] lies in [[-180, 180]]; whenever the
    difference already lies in [[-180, 180]] the result is the difference
    itself; and [yawTransform] leaves the whole state as it found it. *)
Theorem yawTransform_single_wrap (w : World) (y : Q) :
  (-540 <= y - yawCenterPoint (fly w) <= 540 ->
   -180 <= fst (yawTransform y w) <= 180)
  /\ (-180 <= y - yawCenterPoint (fly w) <= 180 ->
      fst (yawTransform y w) = y - yawCenterPoint (fly w))
  /\ snd (yawTransform y w) = w.
Proof.
  unfold yawTransform, bind, gets, ret.
  cbn [fst snd].
  set (d := y - yawCenterPoint (fly w)).
  conjuncts.
  - intros [Hlo Hhi].
    destruct (Qltb_spec 180 d) as [H1 | H1];
      [| destruct (Qltb_spec d (-180)) as [H2 | H2]]; split; lra.
  - intros [Hlo Hhi].
    destruct (Qltb_spec 180 d) as [H1 | H1]; [exfalso; lra |].
    destruct (Qltb_spec d (-180)) as [H2 | H2]; [exfalso; lra |].
    reflexivity.
  - reflexivity.
Qed.

(** *** Attitude and rate stages *)

(** C3.  [getAttitudePidOutput] evaluates, for each axis, that axis's
    attitude PID (the yaw measurement going through [yawTransform] first)
    and stores the evaluation clamped to [[-gyroLimit, +gyroLimit]];
    [getRatePidOutput] sets the setpoint of each rate controller to the
    stored attitude output of the same axis, evaluates the controller so
    set and returns the three evaluations as they are, without any clamp.
    The controllers are left as these steps leave them, by the two functions
    alone and by a tick. *)
Theorem attitude_clamped_rate_raw (e : Inputs) (w : World) :
  let g := gyroLimit (fly w) in
  let wa := snd (getAttitudePidOutput e w) in
  let wr := snd (getRatePidOutput e w) in
  let attitude (c : PidId) (angle : Q) :=
    pidCalculation_struct (pid w c) angle true true true in
  let rate (w0 : World) (c : PidId) (sp gyro : Q) :=
    pidCalculation_struct (setPidSp_struct (pid w0 c) sp) gyro
      true true true in
  rollAttitudeOutput (fly wa)
  = LIMIT_MIN_MAX_VALUE
      (snd (attitude rollAttitudePidSettings (getRoll e))) (- g) g
  /\ pitchAttitudeOutput (fly wa)
     = LIMIT_MIN_MAX_VALUE
         (snd (attitude pitchAttitudePidSettings (getPitch e))) (- g) g
  /\ yawAttitudeOutput (fly wa)
     = LIMIT_MIN_MAX_VALUE
         (snd (attitude yawAttitudePidSettings
                 (fst (yawTransform (getYaw e) w)))) (- g) g
  /\ pid wa rollAttitudePidSettings
     = fst (attitude rollAttitudePidSettings (getRoll e))
  /\ pid wa pitchAttitudePidSettings
     = fst (attitude pitchAttitudePidSettings (getPitch e))
  /\ pid wa yawAttitudePidSettings
     = fst (attitude yawAttitudePidSettings
              (fst (yawTransform (getYaw e) w)))
  /\ fst (getRatePidOutput e w)
     = (snd (rate w rollRatePidSettings (rollAttitudeOutput (fly w))
               (getRollGyro e)),
        snd (rate w pitchRatePidSettings (pitchAttitudeOutput (fly w))
               (getPitchGyro e)),
        snd (rate w yawRatePidSettings (yawAttitudeOutput (fly w))
               (getYawGyro e)))
  /\ pid wr rollRatePidSettings
     = fst (rate w rollRatePidSettings (rollAttitudeOutput (fly w))
              (getRollGyro e))
  /\ pid wr pitchRatePidSettings
     = fst (rate w pitchRatePidSettings (pitchAttitudeOutput (fly w))
              (getPitchGyro e))
  /\ pid wr yawRatePidSettings
     = fst (rate w yawRatePidSettings (yawAttitudeOutput (fly w))
              (getYawGyro e))
  /\ fly wr = fly w
  /\ (let l := fst (motorControler e w) in
      let wt := snd (motorControler e w) in
      rollAttitudeOutput (fly wt) = rollAttitudeOutput (fly wa)
      /\ pitchAttitudeOutput (fly wt) = pitchAttitudeOutput (fly wa)
      /\ yawAttitudeOutput (fly wt) = yawAttitudeOutput (fly wa)
      /\ pid wt rollAttitudePidSettings = pid wa rollAttitudePidSettings
      /\ pid wt pitchAttitudePidSettings = pid wa pitchAttitudePidSettings
      /\ pid wt yawAttitudePidSettings = pid wa yawAttitudePidSettings
      /\ rollRateOutput l
         = snd (rate w rollRatePidSettings (rollAttitudeOutput (fly wt))
                  (getRollGyro e))
      /\ pitchRateOutput l
         = snd (rate w pitchRatePidSettings (pitchAttitudeOutput (fly wt))
                  (getPitchGyro e))
      /\ yawRateOutput l
         = snd (rate w yawRatePidSettings (yawAttitudeOutput (fly wt))
                  (getYawGyro e))
      /\ pid wt rollRatePidSettings
         = fst (rate w rollRatePidSettings (rollAttitudeOutput (fly wt))
                  (getRollGyro e))
      /\ pid wt pitchRatePidSettings
         = fst (rate w pitchRatePidSettings (pitchAttitudeOutput (fly wt))
                  (getPitchGyro e))
      /\ pid wt yawRatePidSettings
         = fst (rate w yawRatePidSettings (yawAttitudeOutput (fly wt))
                  (getYawGyro e))).
Proof.
  cbv zeta. conjuncts; by_run e.
Qed.

(** *** Throttle offsets *)

(** C6.  Whatever the enable flags say, each tick computes the
    acceleration-compensation offset by setting the setpoint of the
    vertical-acceleration PID to 0, evaluating it on the measured vertical
    acceleration and clamping the result to
    [[-maxThrottleOffset, +maxThrottleOffset]]. *)
Theorem acceleration_offset_every_tick (e : Inputs) (w : World) :
  let limit := maxThrottleOffset (fly w) in
  let evaluation :=
    pidCalculation_struct
      (setPidSp_struct (pid w verticalAccelPidSettings) 0)
      (getVerticalAcceleration e) true true true in
  fst (getThrottleOffsetByAcceleration e w)
  = LIMIT_MIN_MAX_VALUE (snd evaluation) (- limit) limit
  /\ accelThrottleOffset (fst (motorControler e w))
     = LIMIT_MIN_MAX_VALUE (snd evaluation) (- limit) limit
  /\ pid (snd (motorControler e w)) verticalAccelPidSettings
     = fst evaluation.
Proof.
  cbv zeta. conjuncts; by_run e.
Qed.

(** C4.  When altitude hold is disabled, or the altitude subsystem is not
    ready, or the period gate reports that no update is due, the
    altitude-hold throttle offset of the tick is exactly 0.  When all three
    hold, the altitude PID is evaluated on
    [currentAltitude - targetAltitude], clamped to
    [[-altitudePidOutputLimitation, +altitudePidOutputLimitation]] and
    stored into [altHoltAltOutput]; the setpoint of the vertical-speed PID
    is then set to that value, the controller so set is evaluated on the
    vertical speed and its output is clamped to
    [[-maxThrottleOffset, +maxThrottleOffset]]; both controllers are left as
    evaluated. *)
Theorem altitude_hold_gating (e : Inputs) (w : World) :
  let l := fst (motorControler e w) in
  let wt := snd (motorControler e w) in
  (getEnableAltHold e = false \/ getAltHoldIsReady e = false
   \/ updateAltHold e = false ->
   altholdThrottleOffset l = 0)
  /\ (getEnableAltHold e = true -> getAltHoldIsReady e = true ->
      updateAltHold e = true ->
      let altLimit := altitudePidOutputLimitation (fly w) in
      let limit := maxThrottleOffset (fly w) in
      let altitude :=
        pidCalculation_struct (pid w altHoldAltSettings)
          (getCurrentAltHoldAltitude e - getTargetAlt e)
          true true true in
      let altOut :=
        LIMIT_MIN_MAX_VALUE (snd altitude) (- altLimit) altLimit in
      let speed :=
        pidCalculation_struct
          (setPidSp_struct (pid w altHoldlSpeedSettings) altOut)
          (getAltholdSpeed e) true true true in
      altHoltAltOutput (fly wt) = altOut
      /\ altholdThrottleOffset l
         = LIMIT_MIN_MAX_VALUE (snd speed) (- limit) limit
      /\ pid wt altHoldAltSettings = fst altitude
      /\ pid wt altHoldlSpeedSettings = fst speed).
Proof.
  cbv zeta. split.
  - intros [H | [H | H]]; revert H; by_gates e; intros H;
      try discriminate H; run_program; reflexivity.
  - intros H1 H2 H3; revert H1 H2 H3; by_gates e; intros H1 H2 H3;
      try discriminate; conjuncts; run_program; reflexivity.
Qed.

(** *** The motor mixer *)

(** The four sums handed to the combined clamp, in terms of the rate
    outputs of the tick. *)
Lemma mixer_corrections (e : Inputs) (w : World) :
  let l := fst (motorControler e w) in
  correction l SOFT_PWM_CCW1
  = rollRateOutput l - pitchRateOutput l + yawRateOutput l
  /\ correction l SOFT_PWM_CCW2
     = - rollRateOutput l + pitchRateOutput l + yawRateOutput l
  /\ correction l SOFT_PWM_CW1
     = - rollRateOutput l - pitchRateOutput l - yawRateOutput l
  /\ correction l SOFT_PWM_CW2
     = rollRateOutput l + pitchRateOutput l - yawRateOutput l.
Proof.
  cbv zeta. conjuncts; by_run e.
Qed.

(** C1.  With [R], [P] and [Y] the roll, pitch and yaw outputs the rate
    stage produced in the tick, the sums the mixer forms before the combined
    clamp are exactly [R - P + Y] for CCW1, [- R + P + Y] for CCW2,
    [- R - P - Y] for CW1 and [R + P - Y] for CW2, that is, the rate outputs
    weighted by the sign table. *)
Theorem mixer_sign_table (e : Inputs) (w : World) :
  let l := fst (motorControler e w) in
  let R := rollRateOutput l in
  let P := pitchRateOutput l in
  let Y := yawRateOutput l in
  let offsets :=
    snd (getThrottleOffsetByAcceleration e
           (snd ((if getEnableAltHold e && getAltHoldIsReady e
                  then getThrottleOffsetByAltHold e (updateAltHold e)
                  else ret 0) w))) in
  (R, P, Y)
  = fst (getRatePidOutput e (snd (getAttitudePidOutput e offsets)))
  /\ correction l SOFT_PWM_CCW1 = R - P + Y
  /\ correction l SOFT_PWM_CCW2 = - R + P + Y
  /\ correction l SOFT_PWM_CW1 = - R - P - Y
  /\ correction l SOFT_PWM_CW2 = R + P - Y
  /\ (forall m : Motor, correction l m == spec_correction m R P Y).
Proof.
  cbv zeta.
  destruct (mixer_corrections e w) as (H1 & H2 & H3 & H4).
  conjuncts; try assumption.
  - by_run e.
  - intros m. destruct m; unfold spec_correction, sign.
    + rewrite H1. ring.
    + rewrite H3. ring.
    + rewrite H2. ring.
    + rewrite H4. ring.
Qed.


(** *** Initialisation *)

(** C9.  [flyControlerInit] returns false exactly when the initialisation
    of the motor-control lock fails.  When it succeeds it returns true and
    leaves the adjust period at 1, the gyro limit at 50, the angular limit
    at 5000, the altitude-PID output limit at 15, the four motor gains at 1,
    the cached stage outputs (roll, pitch and yaw attitude outputs and
    [altHoltAltOutput]) at 0 and the halt flag cleared. *)
Theorem flyControlerInit_defaults (pthread_mutex_init_result : Z)
  (w : World) :
  let r := fst (flyControlerInit pthread_mutex_init_result w) in
  let wi := snd (flyControlerInit pthread_mutex_init_result w) in
  (r = false <-> pthread_mutex_init_result <> 0%Z)
  /\ (pthread_mutex_init_result = 0%Z ->
      r = true
      /\ fst (getAdjustPeriod wi) = 1%Z
      /\ fst (getGyroLimit wi) = 50
      /\ fst (getAngularLimit wi) = 5000
      /\ fst (getAltitudePidOutputLimitation wi) = 15
      /\ (forall m : Motor, fst (getMotorGain m wi) = 1)
      /\ rollAttitudeOutput (fly wi) = 0
      /\ pitchAttitudeOutput (fly wi) = 0
      /\ yawAttitudeOutput (fly wi) = 0
      /\ altHoltAltOutput (fly wi) = 0
      /\ fst (getLeaveFlyControlerFlag wi) = false).
Proof.
  cbv zeta. unfold flyControlerInit. split.
  - destruct (Z.eqb_spec pthread_mutex_init_result 0) as [E | E];
      cbn [negb fst ret]; split; intros H.
    + lazy in H. discriminate H.
    + contradiction.
    + exact E.
    + reflexivity.
  - intros ->. cbn [Z.eqb negb].
    conjuncts; try reflexivity.
    intros m. destruct m; reflexivity.
Qed.

(** *** The throttle-offset bound *)

(** A failed initialisation changes nothing. *)
Lemma flyControlerInit_failure (rc : Z) (w : World) :
  fst (flyControlerInit rc w) = false -> snd (flyControlerInit rc w) = w.
Proof.
  unfold flyControlerInit.
  destruct (negb (rc =? 0)%Z); [reflexivity |].
  intros H. lazy in H. discriminate H.
Qed.

Lemma flyControlerInit_success (rc : Z) (w : World) :
  fst (flyControlerInit rc w) = true ->
  maxThrottleOffset (fly (snd (flyControlerInit rc w))) = 1000.
Proof.
  unfold flyControlerInit.
  destruct (negb (rc =? 0)%Z); [| reflexivity].
  intros H. lazy in H. discriminate H.
Qed.

(** No function other than [flyControlerInit] writes
    [maxThrottleOffset]. *)
Lemma exec_keeps_maxThrottleOffset (o : Op) (w : World) :
  (forall rc : Z, o <> Op_flyControlerInit rc) ->
  maxThrottleOffset (fly (exec o w)) = maxThrottleOffset (fly w).
Proof.
  intros Hinit.
  destruct o as [rc | v | | e | e | p | | y | l | | p | | a | | v | ];
    unfold exec.
  - exfalso. exact (Hinit rc eq_refl).
  - reflexivity.
  - reflexivity.
  - by_run e.
  - by_run e.
  - reflexivity.
  - reflexivity.
  - reflexivity.
  - reflexivity.
  - reflexivity.
  - reflexivity.
  - reflexivity.
  - reflexivity.
  - reflexivity.
  - reflexivity.
  - reflexivity.
Qed.

Lemma exec_maxThrottleOffset_invariant (o : Op) (w : World) :
  maxThrottleOffset (fly w) = 1000 ->
  maxThrottleOffset (fly (exec o w)) = 1000.
Proof.
  intros H.
  destruct o as [rc | v | | e | e | p | | y | l | | p | | a | | v | ];
    try (rewrite exec_keeps_maxThrottleOffset; [exact H | discriminate]).
  unfold exec.
  destruct (fst (flyControlerInit rc w)) eqn:E.
  - apply flyControlerInit_success. exact E.
  - rewrite flyControlerInit_failure; assumption.
Qed.

Lemma run_maxThrottleOffset_invariant (ops : list Op) (w : World) :
  maxThrottleOffset (fly w) = 1000 ->
  maxThrottleOffset (fly (run ops w)) = 1000.
Proof.
  revert w. induction ops as [| o rest IH]; intros w H.
  - exact H.
  - cbn [run]. apply IH. apply exec_maxThrottleOffset_invariant. exact H.
Qed.

(** Both offsets are 0 or a clamp to the current [maxThrottleOffset]. *)
Lemma getThrottleOffsetByAcceleration_clamped (e : Inputs) (w : World) :
  exists x : Q,
    fst (getThrottleOffsetByAcceleration e w)
    = LIMIT_MIN_MAX_VALUE x (- maxThrottleOffset (fly w))
        (maxThrottleOffset (fly w)).
Proof.
  eexists. reflexivity.
Qed.

Lemma getThrottleOffsetByAltHold_clamped (e : Inputs) (b : bool)
  (w : World) :
  fst (getThrottleOffsetByAltHold e b w) = 0
  \/ exists x : Q,
       fst (getThrottleOffsetByAltHold e b w)
       = LIMIT_MIN_MAX_VALUE x (- maxThrottleOffset (fly w))
           (maxThrottleOffset (fly w)).
Proof.
  destruct b.
  - right. eexists. reflexivity.
  - left. reflexivity.
Qed.

Lemma motorControler_offsets_clamped (e : Inputs) (w : World) :
  let l := fst (motorControler e w) in
  (exists x : Q,
     accelThrottleOffset l
     = LIMIT_MIN_MAX_VALUE x (- maxThrottleOffset (fly w))
         (maxThrottleOffset (fly w)))
  /\ (altholdThrottleOffset l = 0
      \/ exists x : Q,
           altholdThrottleOffset l
           = LIMIT_MIN_MAX_VALUE x (- maxThrottleOffset (fly w))
               (maxThrottleOffset (fly w))).
Proof.
  cbv zeta. split.
  - by_gates e; eexists; run_program; reflexivity.
  - by_gates e;
      first [ left; run_program; reflexivity
            | right; eexists; run_program; reflexivity ].
Qed.

Lemma clamped_to_1000 (v limit : Q) :
  limit = 1000 ->
  (exists x : Q, v = LIMIT_MIN_MAX_VALUE x (- limit) limit) ->
  -1000 <= v <= 1000.
Proof.
  intros -> [x ->].
  destruct (LIMIT_MIN_MAX_VALUE_symmetric x 1000) as [H1 H2]; [lra |].
  split; lra.
Qed.

(** C10.  After a successful [flyControlerInit], [maxThrottleOffset] is
    1000 and stays 1000 through every sequence of calls of the functions the
    file exposes; hence the acceleration-compensation offset and the
    altitude-hold offset are always within [[-1000, +1000]]. *)
Theorem maxThrottleOffset_fixed (rc : Z) (w0 : World) (ops : list Op)
  (e : Inputs) (b : bool) :
  fst (flyControlerInit rc w0) = true ->
  let w := run ops (snd (flyControlerInit rc w0)) in
  let l := fst (motorControler e w) in
  maxThrottleOffset (fly (snd (flyControlerInit rc w0))) = 1000
  /\ maxThrottleOffset (fly w) = 1000
  /\ -1000 <= fst (getThrottleOffsetByAcceleration e w) <= 1000
  /\ -1000 <= fst (getThrottleOffsetByAltHold e b w) <= 1000
  /\ -1000 <= accelThrottleOffset l <= 1000
  /\ -1000 <= altholdThrottleOffset l <= 1000.
Proof.
  intros Hinit w l.
  assert (H0 : maxThrottleOffset (fly (snd (flyControlerInit rc w0))) = 1000)
    by (apply flyControlerInit_success; exact Hinit).
  assert (Hw : maxThrottleOffset (fly w) = 1000)
    by (apply run_maxThrottleOffset_invariant; exact H0).
  destruct (motorControler_offsets_clamped e w) as [Hacc Halt].
  split; [exact H0 |]. split; [exact Hw |].
  split; [| split; [| split]].
  - apply (clamped_to_1000 _ _ Hw).
    apply getThrottleOffsetByAcceleration_clamped.
  - destruct (getThrottleOffsetByAltHold_clamped e b w) as [E | E].
    + rewrite E. split; lra.
    + apply (clamped_to_1000 _ _ Hw E).
  - apply (clamped_to_1000 _ _ Hw Hacc).
  - destruct Halt as [E | E].
    + fold l in E. rewrite E. split; lra.
    + apply (clamped_to_1000 _ _ Hw E).
Qed.

(** *** More on the motor mixer *)

Lemma max_bounds (a b : Q) : a <= max a b /\ b <= max a b.
Proof.
  unfold max. destruct (Qltb_spec b a); split; lra.
Qed.

Lemma max_lub (a b c : Q) : a <= c -> b <= c -> max a b <= c.
Proof.
  unfold max. destruct (Qltb_spec b a); intros; assumption.
Qed.

Lemma min_bounds (a b : Q) : min a b <= a /\ min a b <= b.
Proof.
  unfold min. destruct (Qltb_spec a b); split; lra.
Qed.

Lemma min_glb (a b c : Q) : c <= a -> c <= b -> c <= min a b.
Proof.
  unfold min. destruct (Qltb_spec a b); intros; assumption.
Qed.

(** What the tick hands to each motor, in terms of its locals. *)
Lemma motorControler_out (e : Inputs) (w : World) (m : Motor) :
  let l := fst (motorControler e w) in
  out l m
  = motorGain w m
    * LIMIT_MIN_MAX_VALUE
        (centerThrottle l
         + LIMIT_MIN_MAX_VALUE (correction l m)
             (- getPidOutputLimitation e) (getPidOutputLimitation e))
        (minLimit l) (maxLimit l)
  /\ motorPowerLevel (snd (motorControler e w)) m
     = float_to_unsigned_short (out l m)
  /\ minLimit l
     = max (centerThrottle l - getAdjustPowerLeveRange e)
         (getMinPowerLevel e)
  /\ maxLimit l
     = min (centerThrottle l + getAdjustPowerLeveRange e)
         (getMaxPowerLeve e).
Proof.
  cbv zeta. conjuncts; destruct m; by_run e.
Qed.

(** X2.  When no clamp of the mixer is active (every sum within the mixer
    limit, every center-plus-sum within the power limits) each motor is
    handed its gain times the center throttle plus its sum. *)
Theorem mixer_unsaturated (e : Inputs) (w : World) :
  let l := fst (motorControler e w) in
  (forall m : Motor,
     - getPidOutputLimitation e <= correction l m
     /\ correction l m <= getPidOutputLimitation e) ->
  (forall m : Motor,
     minLimit l <= centerThrottle l + correction l m
     /\ centerThrottle l + correction l m <= maxLimit l) ->
  forall m : Motor,
    out l m = motorGain w m * (centerThrottle l + correction l m).
Proof.
  intros l Hc Hl m.
  destruct (motorControler_out e w m) as (Ho & _).
  fold l in Ho. rewrite Ho.
  rewrite (LIMIT_MIN_MAX_VALUE_inside (correction l m)) by apply Hc.
  rewrite LIMIT_MIN_MAX_VALUE_inside by apply Hl.
  reflexivity.
Qed.

(** X3.  With a non-negative adjust range, platform bounds in order and a center
    throttle no farther than the range outside them, every motor is handed
    its gain times a value that lies within the platform bounds and within
    the adjust range of the center throttle. *)
Theorem mixer_output_within_limits (e : Inputs) (w : World) (m : Motor) :
  let l := fst (motorControler e w) in
  0 <= getAdjustPowerLeveRange e ->
  getMinPowerLevel e <= getMaxPowerLeve e ->
  getMinPowerLevel e - getAdjustPowerLeveRange e <= centerThrottle l ->
  centerThrottle l <= getMaxPowerLeve e + getAdjustPowerLeveRange e ->
  exists v : Q,
    out l m = motorGain w m * v
    /\ getMinPowerLevel e <= v <= getMaxPowerLeve e
    /\ centerThrottle l - getAdjustPowerLeveRange e <= v
       <= centerThrottle l + getAdjustPowerLeveRange e.
Proof.
  intros l Hr Hp Hlo Hhi.
  destruct (motorControler_out e w m) as (Ho & _ & Hmin & Hmax).
  fold l in Ho, Hmin, Hmax.
  eexists. split; [exact Ho |].
  destruct (max_bounds (centerThrottle l - getAdjustPowerLeveRange e)
              (getMinPowerLevel e)) as [Hx1 Hx2].
  destruct (min_bounds (centerThrottle l + getAdjustPowerLeveRange e)
              (getMaxPowerLeve e)) as [Hn1 Hn2].
  rewrite <- Hmin in Hx1, Hx2. rewrite <- Hmax in Hn1, Hn2.
  assert (Hle : minLimit l <= maxLimit l).
  { rewrite Hmin, Hmax. apply max_lub; apply min_glb; lra. }
  match goal with
  | |- context [LIMIT_MIN_MAX_VALUE ?x (minLimit l) (maxLimit l)] =>
      destruct (LIMIT_MIN_MAX_VALUE_bounds x _ _ Hle) as [B1 B2]
  end.
  repeat split; lra.
Qed.

(** X4.  The command a motor receives is the cast of its final local, and
    whenever that local lies in [[0, 65536)] the command is its integral
    part: command <= local < command + 1. *)
Theorem motor_command_is_integral_part (e : Inputs) (w : World) (m : Motor) :
  let l := fst (motorControler e w) in
  let command := motorPowerLevel (snd (motorControler e w)) m in
  command = float_to_unsigned_short (out l m)
  /\ (0 <= out l m -> out l m < 65536 ->
      inject_Z command <= out l m /\ out l m < inject_Z (command + 1)).
Proof.
  intros l command.
  destruct (motorControler_out e w m) as (_ & Hc & _).
  fold l command in Hc.
  split; [exact Hc |].
  intros H0 H1. rewrite Hc.
  rewrite (float_to_unsigned_short_in_range _ H0 H1).
  split; [apply Qfloor_le | apply Qlt_floor].
Qed.

(** *** What a tick leaves alone *)

(** X5.  A tick writes none of the settings: the halt flag, the adjust period,
    the three limits, the yaw center point, [maxThrottleOffset], the motor
    gains and the system switch are after the tick what they were before. *)
Theorem tick_keeps_configuration (e : Inputs) (w : World) :
  let wt := snd (motorControler e w) in
  leaveFlyControler (fly wt) = leaveFlyControler (fly w)
  /\ adjustPeriod (fly wt) = adjustPeriod (fly w)
  /\ angularLimit (fly wt) = angularLimit (fly w)
  /\ gyroLimit (fly wt) = gyroLimit (fly w)
  /\ yawCenterPoint (fly wt) = yawCenterPoint (fly w)
  /\ maxThrottleOffset (fly wt) = maxThrottleOffset (fly w)
  /\ altitudePidOutputLimitation (fly wt)
     = altitudePidOutputLimitation (fly w)
  /\ motorGain wt = motorGain w
  /\ systemControl wt = systemControl w.
Proof.
  cbv zeta. conjuncts; by_run e.
Qed.

(** X6.  When altitude hold is disabled, not ready or not due, the tick does not
    evaluate the two altitude-hold controllers and keeps the cached
    [altHoltAltOutput]: all three are left exactly as they were. *)
Theorem tick_gated_off_leaves_altitude_hold (e : Inputs) (w : World) :
  getEnableAltHold e && getAltHoldIsReady e && updateAltHold e = false ->
  let wt := snd (motorControler e w) in
  altHoltAltOutput (fly wt) = altHoltAltOutput (fly w)
  /\ pid wt altHoldAltSettings = pid w altHoldAltSettings
  /\ pid wt altHoldlSpeedSettings = pid w altHoldlSpeedSettings.
Proof.
  intros H; revert H. cbv zeta.
  by_gates e; intros H; try discriminate H;
    conjuncts; run_program; reflexivity.
Qed.

(** X7.  The commands of a tick depend on the controllers, the gains, the gyro
    limit, the yaw center point, [maxThrottleOffset] and the altitude limit
    only: two states that agree on these give the same locals, the same
    four commands, the same controllers and the same attitude outputs,
    whatever their halt flags, adjust periods, angular limits, cached stage
    outputs and previously commanded power levels. *)
Theorem tick_ignores_cached_state (e : Inputs) (w1 w2 : World) :
  pid w1 = pid w2 ->
  motorGain w1 = motorGain w2 ->
  gyroLimit (fly w1) = gyroLimit (fly w2) ->
  yawCenterPoint (fly w1) = yawCenterPoint (fly w2) ->
  maxThrottleOffset (fly w1) = maxThrottleOffset (fly w2) ->
  altitudePidOutputLimitation (fly w1)
  = altitudePidOutputLimitation (fly w2) ->
  let t1 := motorControler e w1 in
  let t2 := motorControler e w2 in
  fst t1 = fst t2
  /\ (forall m : Motor,
        motorPowerLevel (snd t1) m = motorPowerLevel (snd t2) m)
  /\ (forall c : PidId, pid (snd t1) c = pid (snd t2) c)
  /\ rollAttitudeOutput (fly (snd t1)) = rollAttitudeOutput (fly (snd t2))
  /\ pitchAttitudeOutput (fly (snd t1))
     = pitchAttitudeOutput (fly (snd t2))
  /\ yawAttitudeOutput (fly (snd t1)) = yawAttitudeOutput (fly (snd t2)).
Proof.
  destruct w1 as [[lv1 ra1 pa1 ya1 aa1 ap1 al1 gl1 yc1 mt1 pl1] p1 g1 l1 s1].
  destruct w2 as [[lv2 ra2 pa2 ya2 aa2 ap2 al2 gl2 yc2 mt2 pl2] p2 g2 l2 s2].
  cbn [fly pid motorGain gyroLimit yawCenterPoint maxThrottleOffset
       altitudePidOutputLimitation].
  intros -> -> -> -> -> ->. cbv zeta.
  conjuncts.
  - by_run e.
  - intros m. destruct m; by_run e.
  - intros c. by_run e.
  - by_run e.
  - by_run e.
  - by_run e.
Qed.

(** *** Bounds the clamps give *)

Lemma clamped_within (v limit : Q) :
  0 <= limit ->
  (exists x : Q, v = LIMIT_MIN_MAX_VALUE x (- limit) limit) ->
  - limit <= v <= limit.
Proof.
  intros H [x ->]. apply LIMIT_MIN_MAX_VALUE_symmetric. exact H.
Qed.

(** X8.  With a non-negative gyro limit, the three attitude outputs a tick
    stores lie within the gyro limit; and when the altitude stage runs with
    a non-negative altitude limit, so does [altHoltAltOutput] within the
    altitude limit. *)
Theorem tick_stage_outputs_bounded (e : Inputs) (w : World) :
  let wt := snd (motorControler e w) in
  let g := gyroLimit (fly w) in
  let a := altitudePidOutputLimitation (fly w) in
  (0 <= g ->
   (- g <= rollAttitudeOutput (fly wt) <= g)
   /\ (- g <= pitchAttitudeOutput (fly wt) <= g)
   /\ (- g <= yawAttitudeOutput (fly wt) <= g))
  /\ (0 <= a ->
      getEnableAltHold e && getAltHoldIsReady e && updateAltHold e = true ->
      - a <= altHoltAltOutput (fly wt) <= a).
Proof.
  cbv zeta. split.
  - intros Hg. conjuncts; apply (clamped_within _ _ Hg);
      by_gates e; eexists; run_program; reflexivity.
  - intros Ha Hon. apply (clamped_within _ _ Ha).
    revert Hon. by_gates e; intros Hon; try discriminate Hon.
    eexists; run_program; reflexivity.
Qed.

(** X9.  With a non-negative [maxThrottleOffset] [M], the combined throttle
    offset of a tick lies within [[-2M, 2M]], and the center throttle is the
    external throttle level moved by that offset: it never leaves the
    throttle level by more than [2M]. *)
Theorem tick_center_throttle_bounded (e : Inputs) (w : World) :
  let l := fst (motorControler e w) in
  let M := maxThrottleOffset (fly w) in
  0 <= M ->
  throttleOffset l = altholdThrottleOffset l + accelThrottleOffset l
  /\ centerThrottle l = getThrottlePowerLevel e + throttleOffset l
  /\ - (2 * M) <= throttleOffset l <= 2 * M
  /\ getThrottlePowerLevel e - 2 * M <= centerThrottle l
     <= getThrottlePowerLevel e + 2 * M.
Proof.
  intros l M HM.
  assert (Ht : throttleOffset l
               = altholdThrottleOffset l + accelThrottleOffset l)
    by (subst l; by_run e).
  assert (Hc : centerThrottle l = getThrottlePowerLevel e + throttleOffset l)
    by (subst l; by_run e).
  destruct (motorControler_offsets_clamped e w) as [Hacc Halt].
  fold l M in Hacc, Halt.
  pose proof (clamped_within _ _ HM Hacc) as [A1 A2].
  assert (Hb : - M <= altholdThrottleOffset l <= M).
  { destruct Halt as [E | E].
    - rewrite E. split; lra.
    - apply (clamped_within _ _ HM E). }
  destruct Hb as [B1 B2].
  split; [exact Ht |]. split; [exact Hc |].
  rewrite Hc, Ht. repeat split; lra.
Qed.

(** *** More on the yaw center point *)

(** The value [setYawCenterPoint] stores. *)
Lemma setYawCenterPoint_stored (p : Q) (w : World) :
  yawCenterPoint (fly (snd (setYawCenterPoint p w)))
  = if Qltb 180 p then p - 360
    else if Qltb p (-180) then p + 360 else p.
Proof.
  reflexivity.
Qed.

Lemma setYawCenterPoint_normalises (p : Q) (w : World) :
  -540 <= p <= 540 ->
  -180 <= yawCenterPoint (fly (snd (setYawCenterPoint p w))) <= 180.
Proof.
  intros [Hlo Hhi]. rewrite setYawCenterPoint_stored.
  destruct (Qltb_spec 180 p); [| destruct (Qltb_spec p (-180))];
    split; lra.
Qed.

(** Only [setYawCenterPoint] writes the yaw center point. *)
Lemma exec_keeps_yawCenterPoint (o : Op) (w : World) :
  (forall p : Q, o <> Op_setYawCenterPoint p) ->
  yawCenterPoint (fly (exec o w)) = yawCenterPoint (fly w).
Proof.
  intros Hset.
  destruct o as [rc | v | | e | e | p | | y | l | | p | | a | | v | ];
    unfold exec.
  - unfold flyControlerInit. destruct (negb (rc =? 0)%Z); reflexivity.
  - reflexivity.
  - reflexivity.
  - by_run e.
  - by_run e.
  - exfalso. exact (Hset p eq_refl).
  - reflexivity.
  - reflexivity.
  - reflexivity.
  - reflexivity.
  - reflexivity.
  - reflexivity.
  - reflexivity.
  - reflexivity.
  - reflexivity.
  - reflexivity.
Qed.

Lemma exec_yawCenterPoint_normalised (o : Op) (w : World) :
  yaw_argument_ok o = true ->
  -180 <= yawCenterPoint (fly w) <= 180 ->
  -180 <= yawCenterPoint (fly (exec o w)) <= 180.
Proof.
  intros Hok Hw.
  destruct o as [rc | v | | e | e | p | | y | l | | p | | a | | v | ];
    try (rewrite exec_keeps_yawCenterPoint; [exact Hw | discriminate]).
  cbn [yaw_argument_ok] in Hok.
  apply andb_prop in Hok. destruct Hok as [H1 H2].
  apply Qle_bool_imp_le in H1. apply Qle_bool_imp_le in H2.
  unfold exec. apply setYawCenterPoint_normalises. split; assumption.
Qed.

(** X11.  The yaw center point stays in [[-180, 180]] through every sequence of
    calls whose [setYawCenterPoint] arguments lie in [[-540, 540]]; and with
    the center in that range, every yaw reading in [[-180, 180]] is
    transformed into [[-180, 180]]. *)
Theorem yawCenterPoint_stays_normalised (ops : list Op) (w : World)
  (y : Q) :
  forallb yaw_argument_ok ops = true ->
  -180 <= yawCenterPoint (fly w) <= 180 ->
  -180 <= yawCenterPoint (fly (run ops w)) <= 180
  /\ (-180 <= y <= 180 -> -180 <= fst (yawTransform y (run ops w)) <= 180).
Proof.
  intros Hops Hw.
  assert (Hrun : -180 <= yawCenterPoint (fly (run ops w)) <= 180).
  { revert w Hw. induction ops as [| o rest IH]; intros w Hw.
    - exact Hw.
    - cbn [forallb] in Hops. apply andb_prop in Hops.
      destruct Hops as [Ho Hrest]. cbn [run].
      apply (IH Hrest). apply exec_yawCenterPoint_normalised; assumption. }
  split; [exact Hrun |].
  intros [Hy1 Hy2]. destruct Hrun as [Hc1 Hc2].
  unfold yawTransform, bind, gets, ret. cbn [fst snd].
  set (d := y - yawCenterPoint (fly (run ops w))).
  assert (Hd : -360 <= d <= 360) by (subst d; split; lra).
  destruct Hd as [Hd1 Hd2].
  destruct (Qltb_spec 180 d); [| destruct (Qltb_spec d (-180))];
    split; lra.
Qed.

(** X13.  Normalisation is idempotent within its reach: for [p] in
    [[-540, 540]], setting the center point to the value just read back
    leaves the state as it is. *)
Theorem setYawCenterPoint_idempotent (w : World) (p : Q) :
  -540 <= p <= 540 ->
  let w' := snd (setYawCenterPoint p w) in
  snd (setYawCenterPoint (fst (getYawCenterPoint w')) w') = w'.
Proof.
  intros Hp w'.
  pose proof (setYawCenterPoint_normalises p w Hp) as [H1 H2].
  fold w' in H1, H2.
  unfold setYawCenterPoint at 1. unfold getYawCenterPoint, gets.
  cbn [fst].
  destruct (Qltb_spec 180 (yawCenterPoint (fly w'))); [exfalso; lra |].
  destruct (Qltb_spec (yawCenterPoint (fly w')) (-180)); [exfalso; lra |].
  reflexivity.
Qed.

(** *** What initialisation and the rate stage leave alone *)

(** X14.  [flyControlerInit] never writes the yaw center point, the controller
    objects or the commanded power levels, whether it succeeds or fails; a
    re-initialisation keeps the recorded heading and the controllers'
    accumulated state. *)
Theorem flyControlerInit_keeps_heading_and_controllers (rc : Z)
  (w : World) :
  let wi := snd (flyControlerInit rc w) in
  yawCenterPoint (fly wi) = yawCenterPoint (fly w)
  /\ pid wi = pid w
  /\ motorPowerLevel wi = motorPowerLevel w.
Proof.
  cbv zeta. unfold flyControlerInit.
  destruct (negb (rc =? 0)%Z); conjuncts; reflexivity.
Qed.

(** X15.  [getRatePidOutput] is not a read: it leaves the three rate controllers
    evaluated with their new setpoints.  Everything else, the file's own
    state, the six other controllers, the gains, the commanded power levels
    and the system switch, is left as it was. *)
Theorem getRatePidOutput_writes_rate_controllers_only (e : Inputs)
  (w : World) :
  let wr := snd (getRatePidOutput e w) in
  pid wr rollRatePidSettings
  = fst (pidCalculation_struct
           (setPidSp_struct (pid w rollRatePidSettings)
              (rollAttitudeOutput (fly w)))
           (getRollGyro e) true true true)
  /\ pid wr pitchRatePidSettings
     = fst (pidCalculation_struct
              (setPidSp_struct (pid w pitchRatePidSettings)
                 (pitchAttitudeOutput (fly w)))
              (getPitchGyro e) true true true)
  /\ pid wr yawRatePidSettings
     = fst (pidCalculation_struct
              (setPidSp_struct (pid w yawRatePidSettings)
                 (yawAttitudeOutput (fly w)))
              (getYawGyro e) true true true)
  /\ (forall c : PidId,
        c <> rollRatePidSettings -> c <> pitchRatePidSettings ->
        c <> yawRatePidSettings -> pid wr c = pid w c)
  /\ fly wr = fly w
  /\ motorGain wr = motorGain w
  /\ motorPowerLevel wr = motorPowerLevel w
  /\ systemControl wr = systemControl w.
Proof.
  cbv zeta. conjuncts; try reflexivity.
  intros c H1 H2 H3. destruct c; try reflexivity; contradiction.
Qed.

(** *** The cascade of one axis *)

(** X10.  Within a tick each rate output is a function of its own axis only: the
    axis's two controllers as the tick found them, its orientation and rate
    readings and the gyro limit (and, for yaw, the center point).  Neither
    the other axes, nor the throttle, nor the altitude-hold readings and
    gates, nor the attitude output cached by an earlier tick enter it. *)
Theorem tick_rate_cascade (e : Inputs) (w : World) :
  let l := fst (motorControler e w) in
  let g := gyroLimit (fly w) in
  let stage (attitude rate : PidId) (angle gyro : Q) :=
    snd (pidCalculation_struct
           (setPidSp_struct (pid w rate)
              (LIMIT_MIN_MAX_VALUE
                 (snd (pidCalculation_struct (pid w attitude) angle
                         true true true)) (- g) g))
           gyro true true true) in
  rollRateOutput l
  = stage rollAttitudePidSettings rollRatePidSettings
      (getRoll e) (getRollGyro e)
  /\ pitchRateOutput l
     = stage pitchAttitudePidSettings pitchRatePidSettings
         (getPitch e) (getPitchGyro e)
  /\ yawRateOutput l
     = stage yawAttitudePidSettings yawRatePidSettings
         (fst (yawTransform (getYaw e) w)) (getYawGyro e).
Proof.
  cbv zeta. conjuncts; by_run e.
Qed.

End Properties.

(** ** Runs on the concrete collaborators *)

Local Open Scope Z_scope.

(** One tick of a hovering vehicle: the locals and the four commands. *)
Example tick_hover_commands :
  let wt := snd (motorControler inputs_hover world_init) in
  map (motorPowerLevel wt)
    [SOFT_PWM_CCW1; SOFT_PWM_CCW2; SOFT_PWM_CW1; SOFT_PWM_CW2]
  = [1463; 1477; 1489; 1491].
Proof. vm_compute. reflexivity. Qed.

Example tick_hover_offsets :
  let l := fst (motorControler inputs_hover world_init) in
  (altholdThrottleOffset l, accelThrottleOffset l, centerThrottle l)
  = ((-19)%Q, (-1 # 2)%Q, (2961 # 2)%Q).
Proof. vm_compute. reflexivity. Qed.

(** The scenario of the specification: the roll attitude evaluation 120 is
    stored as 50, the roll rate evaluation 80 is returned as it is, and the
    roll-only correction of CCW1 is cut to the mixer limit 30 before it is
    added to the center throttle 1500. *)
Example scenario_saturation :
  let l := fst (motorControler inputs_scenario world_init) in
  let wt := snd (motorControler inputs_scenario world_init) in
  rollAttitudeOutput (fly wt) = 50%Q
  /\ rollRateOutput l = 80%Q
  /\ correction l SOFT_PWM_CCW1 = 80%Q
  /\ map (motorPowerLevel wt)
       [SOFT_PWM_CCW1; SOFT_PWM_CCW2; SOFT_PWM_CW1; SOFT_PWM_CW2]
     = [1530; 1470; 1470; 1530].
Proof. vm_compute. repeat split. Qed.

Local Open Scope Q_scope.

(** C7, as stated, fails: with center point 0 a raw yaw of 1000 is mapped to
    640, outside [[-180, 180]]. *)
Lemma yawTransform_range_counterexample :
  fst (yawTransform 1000 world_init) = 640
  /\ ~ (-180 <= fst (yawTransform 1000 world_init) <= 180).
Proof.
  split.
  - vm_compute. reflexivity.
  - intros [_ H]. revert H. apply Qlt_not_le. vm_compute. reflexivity.
Qed.

(** The single-wrap property at center point 170: a raw yaw of -170
    (difference -340, wrapped to 20) and a raw yaw of 100 (difference -70,
    returned as it is). *)
Lemma yawTransform_single_wrap_witness :
  -540 <= -170 - yawCenterPoint (fly world_yaw) <= 540
  /\ -180 <= fst (yawTransform (-170) world_yaw) <= 180
  /\ -180 <= 100 - yawCenterPoint (fly world_yaw) <= 180
  /\ fst (yawTransform 100 world_yaw) = 100 - yawCenterPoint (fly world_yaw).
Proof.
  assert (H1 : -540 <= -170 - yawCenterPoint (fly world_yaw) <= 540)
    by (split; apply Qle_bool_imp_le; reflexivity).
  assert (H2 : -180 <= 100 - yawCenterPoint (fly world_yaw) <= 180)
    by (split; apply Qle_bool_imp_le; reflexivity).
  split; [exact H1 |].
  split;
    [exact (proj1 (yawTransform_single_wrap world_yaw (-170)) H1) |].
  split; [exact H2 |].
  exact (proj1 (proj2 (yawTransform_single_wrap world_yaw 100)) H2).
Defined.

(** Setting the center point to 200 stores -160. *)
Lemma setYawCenterPoint_getYawCenterPoint_witness :
  -540 <= 200 <= 540
  /\ (let c := fst (getYawCenterPoint (snd (setYawCenterPoint 200 world_init)))
      in
      -180 <= c <= 180
      /\ (180 < 200 -> c = 200 - 360)
      /\ (200 < -180 -> c = 200 + 360)
      /\ (-180 <= 200 <= 180 -> c = 200)).
Proof.
  assert (H : -540 <= 200 <= 540)
    by (split; apply Qle_bool_imp_le; reflexivity).
  split; [exact H |].
  exact (setYawCenterPoint_getYawCenterPoint world_init 200 H).
Defined.

(** The gating at the manual readings (offset 0) and at the hovering
    readings (altitude stage -15, offset -19). *)
Lemma altitude_hold_gating_witness :
  (getEnableAltHold inputs_manual = false
   \/ getAltHoldIsReady inputs_manual = false
   \/ updateAltHold inputs_manual = false)
  /\ altholdThrottleOffset (fst (motorControler inputs_manual world_init)) = 0
  /\ getEnableAltHold inputs_hover = true
  /\ getAltHoldIsReady inputs_hover = true
  /\ updateAltHold inputs_hover = true
  /\ altHoltAltOutput (fly (snd (motorControler inputs_hover world_init)))
     = LIMIT_MIN_MAX_VALUE (0 - (120 - 100)) (- (15)) 15
  /\ altholdThrottleOffset (fst (motorControler inputs_hover world_init))
     = LIMIT_MIN_MAX_VALUE
         (LIMIT_MIN_MAX_VALUE (0 - (120 - 100)) (- (15)) 15 - 4)
         (- (1000)) 1000
  /\ pid (snd (motorControler inputs_hover world_init)) altHoldAltSettings
     = 0
  /\ pid (snd (motorControler inputs_hover world_init))
       altHoldlSpeedSettings
     = LIMIT_MIN_MAX_VALUE (0 - (120 - 100)) (- (15)) 15.
Proof.
  assert (Hoff : getEnableAltHold inputs_manual = false
                 \/ getAltHoldIsReady inputs_manual = false
                 \/ updateAltHold inputs_manual = false)
    by (left; reflexivity).
  split; [exact Hoff |].
  split;
    [exact (proj1 (altitude_hold_gating inputs_manual world_init) Hoff) |].
  split; [reflexivity |]. split; [reflexivity |]. split; [reflexivity |].
  exact (proj2 (altitude_hold_gating inputs_hover world_init)
           eq_refl eq_refl eq_refl).
Defined.

(** Initialisation of the zeroed program with a lock that initialises
    (result 0) and with one that does not (result 1). *)
Lemma flyControlerInit_defaults_witness :
  0%Z = 0%Z
  /\ fst (flyControlerInit 0 world_zero) = true
  /\ fst (getGyroLimit (snd (flyControlerInit 0 world_zero))) = 50
  /\ (1%Z <> 0%Z <-> fst (flyControlerInit 1 world_zero) = false).
Proof.
  split; [reflexivity |].
  pose proof (proj2 (flyControlerInit_defaults 0 world_zero) eq_refl)
    as (Hr & _ & Hg & _).
  split; [exact Hr |]. split; [exact Hg |].
  split; intros H.
  - exact (proj2 (proj1 (flyControlerInit_defaults 1 world_zero)) H).
  - exact (proj1 (proj1 (flyControlerInit_defaults 1 world_zero)) H).
Defined.

(** The bound after initialisation of the zeroed program followed by
    [calls_after_init]. *)
Lemma maxThrottleOffset_fixed_witness :
  fst (flyControlerInit 0 world_zero) = true
  /\ (let w := run calls_after_init (snd (flyControlerInit 0 world_zero)) in
      let l := fst (motorControler inputs_hover w) in
      maxThrottleOffset (fly (snd (flyControlerInit 0 world_zero))) = 1000
      /\ maxThrottleOffset (fly w) = 1000
      /\ -1000 <= fst (getThrottleOffsetByAcceleration inputs_hover w) <= 1000
      /\ -1000 <= fst (getThrottleOffsetByAltHold inputs_hover true w) <= 1000
      /\ -1000 <= accelThrottleOffset l <= 1000
      /\ -1000 <= altholdThrottleOffset l <= 1000).
Proof.
  split; [reflexivity |].
  exact (maxThrottleOffset_fixed 0 world_zero calls_after_init inputs_hover
           true eq_refl).
Defined.

(** ** Further runs on the concrete collaborators *)

(** The hovering tick is unsaturated: sums -17, -3, 9 and 11 against the
    mixer limit 300, center throttle 1480.5 with limits 1280.5 and
    1680.5. *)
Lemma mixer_unsaturated_witness :
  (forall m : Motor,
     - getPidOutputLimitation inputs_hover
     <= correction (fst (motorControler inputs_hover world_init)) m
     /\ correction (fst (motorControler inputs_hover world_init)) m
        <= getPidOutputLimitation inputs_hover)
  /\ out (fst (motorControler inputs_hover world_init)) SOFT_PWM_CW2
     = motorGain world_init SOFT_PWM_CW2
       * (centerThrottle (fst (motorControler inputs_hover world_init))
          + correction (fst (motorControler inputs_hover world_init))
              SOFT_PWM_CW2).
Proof.
  assert (Hc : forall m : Motor,
             - getPidOutputLimitation inputs_hover
             <= correction (fst (motorControler inputs_hover world_init)) m
             /\ correction (fst (motorControler inputs_hover world_init)) m
                <= getPidOutputLimitation inputs_hover)
    by (intros m; destruct m; split; apply Qle_bool_imp_le;
        vm_compute; reflexivity).
  split; [exact Hc |].
  refine (mixer_unsaturated inputs_hover world_init Hc _ SOFT_PWM_CW2).
  intros m; destruct m; split; apply Qle_bool_imp_le;
    vm_compute; reflexivity.
Defined.

(** The hovering tick meets the limit conditions: range 200, platform
    bounds 1000 and 2000, center throttle 1480.5. *)
Lemma mixer_output_within_limits_witness :
  0 <= getAdjustPowerLeveRange inputs_hover
  /\ getMinPowerLevel inputs_hover <= getMaxPowerLeve inputs_hover
  /\ exists v : Q,
       out (fst (motorControler inputs_hover world_init)) SOFT_PWM_CCW1
       = motorGain world_init SOFT_PWM_CCW1 * v
       /\ getMinPowerLevel inputs_hover <= v <= getMaxPowerLeve inputs_hover
       /\ centerThrottle (fst (motorControler inputs_hover world_init))
          - getAdjustPowerLeveRange inputs_hover <= v
          <= centerThrottle (fst (motorControler inputs_hover world_init))
             + getAdjustPowerLeveRange inputs_hover.
Proof.
  assert (H1 : 0 <= getAdjustPowerLeveRange inputs_hover)
    by (apply Qle_bool_imp_le; reflexivity).
  assert (H2 : getMinPowerLevel inputs_hover <= getMaxPowerLeve inputs_hover)
    by (apply Qle_bool_imp_le; reflexivity).
  split; [exact H1 |]. split; [exact H2 |].
  apply (mixer_output_within_limits inputs_hover world_init SOFT_PWM_CCW1
           H1 H2);
    apply Qle_bool_imp_le; vm_compute; reflexivity.
Defined.

(** CCW1 of the hovering tick: the local 1463.5 gives the command 1463. *)
Lemma motor_command_is_integral_part_witness :
  0 <= out (fst (motorControler inputs_hover world_init)) SOFT_PWM_CCW1
  /\ out (fst (motorControler inputs_hover world_init)) SOFT_PWM_CCW1 < 65536
  /\ inject_Z
       (motorPowerLevel (snd (motorControler inputs_hover world_init))
          SOFT_PWM_CCW1)
     <= out (fst (motorControler inputs_hover world_init)) SOFT_PWM_CCW1.
Proof.
  assert (H0 : 0 <= out (fst (motorControler inputs_hover world_init))
                      SOFT_PWM_CCW1)
    by (apply Qle_bool_imp_le; vm_compute; reflexivity).
  assert (H1 : out (fst (motorControler inputs_hover world_init))
                 SOFT_PWM_CCW1 < 65536)
    by (vm_compute; reflexivity).
  split; [exact H0 |]. split; [exact H1 |].
  exact (proj1 (proj2 (motor_command_is_integral_part inputs_hover
                         world_init SOFT_PWM_CCW1) H0 H1)).
Defined.

(** The manual readings leave the altitude-hold controllers alone. *)
Lemma tick_gated_off_leaves_altitude_hold_witness :
  getEnableAltHold inputs_manual && getAltHoldIsReady inputs_manual
  && updateAltHold inputs_manual = false
  /\ pid (snd (motorControler inputs_manual world_init)) altHoldAltSettings
     = pid world_init altHoldAltSettings.
Proof.
  split; [reflexivity |].
  exact (proj1 (proj2 (tick_gated_off_leaves_altitude_hold inputs_manual
                         world_init eq_refl))).
Defined.

(** [world_init] and [world_stale] command the same four power levels. *)
Lemma tick_ignores_cached_state_witness :
  leaveFlyControler (fly world_init) <> leaveFlyControler (fly world_stale)
  /\ pid world_init = pid world_stale
  /\ fst (motorControler inputs_hover world_init)
     = fst (motorControler inputs_hover world_stale).
Proof.
  split; [discriminate |]. split; [reflexivity |].
  exact (proj1 (tick_ignores_cached_state inputs_hover world_init
                  world_stale eq_refl eq_refl eq_refl eq_refl eq_refl
                  eq_refl)).
Defined.

(** After initialisation the gyro limit is 50 and the altitude limit 15. *)
Lemma tick_stage_outputs_bounded_witness :
  0 <= gyroLimit (fly world_init)
  /\ - gyroLimit (fly world_init)
     <= rollAttitudeOutput (fly (snd (motorControler inputs_hover world_init)))
     <= gyroLimit (fly world_init)
  /\ 0 <= altitudePidOutputLimitation (fly world_init)
  /\ - altitudePidOutputLimitation (fly world_init)
     <= altHoltAltOutput (fly (snd (motorControler inputs_hover world_init)))
     <= altitudePidOutputLimitation (fly world_init).
Proof.
  assert (Hg : 0 <= gyroLimit (fly world_init))
    by (apply Qle_bool_imp_le; reflexivity).
  assert (Ha : 0 <= altitudePidOutputLimitation (fly world_init))
    by (apply Qle_bool_imp_le; reflexivity).
  split; [exact Hg |].
  split;
    [exact (proj1 (proj1 (tick_stage_outputs_bounded inputs_hover
                            world_init) Hg)) |].
  split; [exact Ha |].
  exact (proj2 (tick_stage_outputs_bounded inputs_hover world_init)
           Ha eq_refl).
Defined.

(** After initialisation [maxThrottleOffset] is 1000: the center throttle of
    the hovering tick is within 2000 of the throttle level 1500. *)
Lemma tick_center_throttle_bounded_witness :
  0 <= maxThrottleOffset (fly world_init)
  /\ getThrottlePowerLevel inputs_hover
     - 2 * maxThrottleOffset (fly world_init)
     <= centerThrottle (fst (motorControler inputs_hover world_init))
     <= getThrottlePowerLevel inputs_hover
        + 2 * maxThrottleOffset (fly world_init).
Proof.
  assert (HM : 0 <= maxThrottleOffset (fly world_init))
    by (apply Qle_bool_imp_le; reflexivity).
  split; [exact HM |].
  exact (proj2 (proj2 (proj2 (tick_center_throttle_bounded inputs_hover
                                world_init HM)))).
Defined.

(** The center point through [calls_yaw], and a reading of -175 after it. *)
Lemma yawCenterPoint_stays_normalised_witness :
  forallb yaw_argument_ok calls_yaw = true
  /\ -180 <= yawCenterPoint (fly world_init) <= 180
  /\ -180 <= -175 <= 180
  /\ -180 <= fst (yawTransform (-175) (run calls_yaw world_init)) <= 180.
Proof.
  assert (Hw : -180 <= yawCenterPoint (fly world_init) <= 180)
    by (split; apply Qle_bool_imp_le; reflexivity).
  assert (Hy : -180 <= -175 <= 180)
    by (split; apply Qle_bool_imp_le; reflexivity).
  split; [reflexivity |]. split; [exact Hw |]. split; [exact Hy |].
  exact (proj2 (yawCenterPoint_stays_normalised calls_yaw world_init (-175)
                  eq_refl Hw) Hy).
Defined.

(** Setting the center point to 200 and then to the value read back. *)
Lemma setYawCenterPoint_idempotent_witness :
  -540 <= 200 <= 540
  /\ snd (setYawCenterPoint
            (fst (getYawCenterPoint (snd (setYawCenterPoint 200 world_init))))
            (snd (setYawCenterPoint 200 world_init)))
     = snd (setYawCenterPoint 200 world_init).
Proof.
  assert (H : -540 <= 200 <= 540)
    by (split; apply Qle_bool_imp_le; reflexivity).
  split; [exact H |].
  exact (setYawCenterPoint_idempotent world_init 200 H).
Defined.

(** The altitude controller is not a rate controller. *)
Lemma getRatePidOutput_writes_rate_controllers_only_witness :
  altHoldAltSettings <> rollRatePidSettings
  /\ pid (snd (getRatePidOutput inputs_hover world_init)) altHoldAltSettings
     = pid world_init altHoldAltSettings.
Proof.
  assert (H1 : altHoldAltSettings <> rollRatePidSettings) by discriminate.
  assert (H2 : altHoldAltSettings <> pitchRatePidSettings) by discriminate.
  assert (H3 : altHoldAltSettings <> yawRatePidSettings) by discriminate.
  split; [exact H1 |].
  exact (proj1 (proj2 (proj2 (proj2
           (getRatePidOutput_writes_rate_controllers_only inputs_hover
              world_init)))) altHoldAltSettings H1 H2 H3).
Defined.

(** Without the reach condition normalisation is not idempotent: 1000 is
    stored as 640, and 640 set again is stored as 280. *)
Example setYawCenterPoint_out_of_reach :
  fst (getYawCenterPoint (snd (setYawCenterPoint 1000 world_init))) = 640
  /\ fst (getYawCenterPoint
            (snd (setYawCenterPoint 640
                    (snd (setYawCenterPoint 1000 world_init))))) = 280.
Proof. vm_compute. split; reflexivity. Qed.
